(** * chipwizard-sim: the layout model, its validator and the gate rule

    A shallow embedding of [chipwizard_sim/models.py].  Python integers are
    [Z], a [set[Direction]] is a [gset Direction], a dataclass is a record
    and a method that can raise returns a [result].  Each Python class gets
    a module of the same name, so that [Cell.check], [Solution.check] and
    [CellState.update_gates] read as they do in the source. *)

From stdpp Require Import base decidable countable functions gmap list.
From Stdlib Require Import ZArith Lia.

Local Open Scope Z_scope.

(** ** Exceptions

    The validator signals a violation with a failing [assert]; indexing a
    list out of range raises [IndexError]. *)

Inductive exn : Set := AssertionError | IndexError.

Inductive result (A : Type) : Type :=
| Return (a : A)
| Raise (e : exn).
Arguments Return {A} a.
Arguments Raise {A} e.

#[global] Instance result_ret : MRet result := fun A a => Return a.

#[global] Instance result_bind : MBind result := fun A B k r =>
  match r with
  | Return a => k a
  | Raise e => Raise e
  end.

(** [None], the value of a method that falls off its end. *)
Definition Passed : result unit := Return tt.

(** [assert b] *)
Definition assert (b : bool) : result unit :=
  if b then Passed else Raise AssertionError.

(** [for a in l: body(a)] *)
Definition for_each {A : Type} (l : list A) (body : A -> result unit)
  : result unit :=
  foldr (fun a k => body a;; k) Passed l.

(** [l[i]] on a Python list: a negative index counts from the end, an
    index outside the list raises. *)
Definition getitem {A : Type} (l : list A) (i : Z) : result A :=
  let j := if bool_decide (0 <= i) then i else Z.of_nat (length l) + i in
  if bool_decide (0 <= j) then
    match l !! Z.to_nat j with
    | Some a => Return a
    | None => Raise IndexError
    end
  else Raise IndexError.

(** ** Geometry *)

Module Coords.
Record t : Set := mk { x : Z; y : Z }.

Definition in_bounds (c : t) : bool :=
  bool_decide (0 <= x c) && bool_decide (x c < 6)
  && (bool_decide (0 <= y c) && bool_decide (y c < 5)).

(** [__add__] *)
Definition add (c o : t) : t := mk (x c + x o) (y c + y o).

(** [__eq__], as the dataclass generates it. *)
Definition eqb (c o : t) : bool :=
  bool_decide (x c = x o) && bool_decide (y c = y o).
End Coords.

Inductive Direction : Set := RIGHT | UP | LEFT | DOWN.

Module Dir.
(** The enumeration's values. *)
Definition value (d : Direction) : positive :=
  match d with RIGHT => 1 | UP => 2 | LEFT => 4 | DOWN => 8 end%positive.

Definition of_value (p : positive) : option Direction :=
  match p with
  | 1 => Some RIGHT | 2 => Some UP | 4 => Some LEFT | 8 => Some DOWN
  | _ => None
  end%positive.

Definition opposite (d : Direction) : Direction :=
  match d with
  | RIGHT => LEFT
  | UP => DOWN
  | LEFT => RIGHT
  | DOWN => UP
  end.

Definition delta (d : Direction) : Coords.t :=
  match d with
  | RIGHT => Coords.mk 1 0
  | UP => Coords.mk 0 1
  | LEFT => Coords.mk (-1) 0
  | DOWN => Coords.mk 0 (-1)
  end.
End Dir.

#[global] Instance Direction_eq_dec : EqDecision Direction :=
  ltac:(solve_decision).

#[global] Instance Direction_countable : Countable Direction :=
  inj_countable Dir.value Dir.of_value
    (fun d => match d with
              | RIGHT | UP | LEFT | DOWN => eq_refl
              end).

(** Truth value of a Python set: true unless empty. *)
Definition set_bool (s : gset Direction) : bool := bool_decide (s ≠ ∅).

(** [len(s)] *)
Definition len (s : gset Direction) : Z := Z.of_nat (size s).

(** [sum((d.delta() for d in s), Coords(0, 0))]: [sum] adds the items to
    its start value from the left, in the set's iteration order. *)
Definition sum_deltas (s : gset Direction) : Coords.t :=
  foldl (fun acc d => Coords.add acc (Dir.delta d)) (Coords.mk 0 0)
        (elements s).

(** ** The static layout *)

Module LayerCell.
Record t : Type := mk { value : bool; connections : gset Direction }.

Definition bool (l : t) : Datatypes.bool := value l.

Definition check (l : t) : result unit :=
  if negb (value l) then assert (negb (set_bool (connections l)))
  else Passed.
End LayerCell.

Inductive Layer : Set := METAL_LAYER | NTYPE_LAYER | PTYPE_LAYER.

#[global] Instance Layer_eq_dec : EqDecision Layer := ltac:(solve_decision).

(** [for layer in Layer], in definition order. *)
Definition Layers : list Layer := [METAL_LAYER; NTYPE_LAYER; PTYPE_LAYER].

Module Cell.
Record t : Type := mk {
  metal : LayerCell.t;
  ntype : LayerCell.t;
  ptype : LayerCell.t;
  capacitor : bool;
  via : bool;
  n_on_top : bool
}.

Definition layer (c : t) (idx : Layer) : LayerCell.t :=
  match idx with
  | METAL_LAYER => metal c
  | NTYPE_LAYER => ntype c
  | PTYPE_LAYER => ptype c
  end.

(** [self.ntype and self.ptype]: Python's [and] yields its first operand
    when that is false and its second otherwise. *)
Definition is_transistor (c : t) : LayerCell.t :=
  if LayerCell.bool (ntype c) then ptype c else ntype c.

Definition check (c : t) : result unit :=
  LayerCell.check (metal c) ;;
  LayerCell.check (ntype c) ;;
  LayerCell.check (ptype c) ;;
  (if capacitor c then
     assert (negb (LayerCell.bool (ntype c))
             && negb (LayerCell.bool (ptype c)))
   else Passed) ;;
  (if via c then
     assert (LayerCell.bool (ntype c) || LayerCell.bool (ptype c)) ;;
     assert (negb (LayerCell.bool (is_transistor c)))
   else Passed) ;;
  assert (negb (set_bool (LayerCell.connections (ntype c)
                          ∩ LayerCell.connections (ptype c)))) ;;
  (if LayerCell.bool (is_transistor c) then
     let base := if n_on_top c then ntype c else ptype c in
     let emi_col := if n_on_top c then ptype c else ntype c in
     assert (bool_decide (len (LayerCell.connections emi_col) = 2)
             && Coords.eqb (sum_deltas (LayerCell.connections emi_col))
                           (Coords.mk 0 0)) ;;
     assert (bool_decide (1 <= len (LayerCell.connections base)))
   else Passed).
End Cell.

Module Solution.
Record t : Type := mk {
  cells : list (list Cell.t);
  selection : option (Coords.t * Coords.t);
  save_string : option (list Byte.byte)
}.

(** The body of the innermost loop: one connection [d] of layer [layer]
    of the cell at [(x, y)]. *)
Definition check_connection (s : t) (x y : Z) (layer : Layer)
    (d : Direction) : result unit :=
  let n_loc := Coords.add (Coords.mk x y) (Dir.delta d) in
  if Coords.in_bounds n_loc then
    col ← getitem (cells s) (Coords.x n_loc);
    nc ← getitem col (Coords.y n_loc);
    assert (bool_decide
              (Dir.opposite d ∈ LayerCell.connections (Cell.layer nc layer)))
  else
    assert (bool_decide (layer = METAL_LAYER)
            && bool_decide (Coords.x n_loc ∈ [-1; 6])
            && bool_decide (Coords.y n_loc ∈ [0; 2; 4])).

(** The body of the loop over [y]. *)
Definition check_cell (s : t) (x y : Z) : result unit :=
  col ← getitem (cells s) x;
  c ← getitem col y;
  Cell.check c ;;
  for_each Layers (fun layer =>
    for_each (elements (LayerCell.connections (Cell.layer c layer)))
             (check_connection s x y layer)).

Definition check (s : t) : result unit :=
  assert (bool_decide (length (cells s) = 6%nat)
          && forallb (fun a => bool_decide (length a = 5%nat)) (cells s)) ;;
  for_each (seqZ 0 6) (fun x =>
    for_each (seqZ 0 5) (fun y => check_cell s x y)).
End Solution.

(** ** The run-time state *)

Module LayerCellState.
Record t : Type := mk {
  value : bool;
  connections : gset Direction;
  powered : bool;
  open : bool
}.

(** Truth value of an instance.  Unlike [LayerCell], this class defines
    neither [__bool__] nor [__len__], so Python takes every instance to
    be true, whatever its [value]. *)
Definition bool (l : t) : Datatypes.bool := true.

(** [cls(layer_cell.value, layer_cell.connections)]: the two remaining
    fields take their defaults, [powered = False] and [open = True]. *)
Definition from_layer_cell (layer_cell : LayerCell.t) : t :=
  mk (LayerCell.value layer_cell) (LayerCell.connections layer_cell)
     false true.

(** [l.open = b] *)
Definition set_open (l : t) (b : Datatypes.bool) : t :=
  mk (value l) (connections l) (powered l) b.
End LayerCellState.

Module CellState.
Record t : Type := mk {
  metal : LayerCellState.t;
  ntype : LayerCellState.t;
  ptype : LayerCellState.t;
  capacitor : bool;
  via : bool;
  n_on_top : bool
}.

Definition layer (s : t) (idx : Layer) : LayerCellState.t :=
  match idx with
  | METAL_LAYER => metal s
  | NTYPE_LAYER => ntype s
  | PTYPE_LAYER => ptype s
  end.

Definition set_metal (s : t) (l : LayerCellState.t) : t :=
  mk l (ntype s) (ptype s) (capacitor s) (via s) (n_on_top s).
Definition set_ntype (s : t) (l : LayerCellState.t) : t :=
  mk (metal s) l (ptype s) (capacitor s) (via s) (n_on_top s).
Definition set_ptype (s : t) (l : LayerCellState.t) : t :=
  mk (metal s) (ntype s) l (capacitor s) (via s) (n_on_top s).

(** The first statement of [update_gates]:
    [if self.capacitor and self.metal: if not self.metal.powered: ...] *)
Definition capacitor_rule (s : t) : t :=
  if capacitor s && LayerCellState.bool (metal s) then
    if negb (LayerCellState.powered (metal s)) then
      set_metal s (LayerCellState.set_open (metal s) false)
    else s
  else s.

(** The second statement of [update_gates]:
    [if self.ntype and self.ptype: if self.n_on_top: ... else: ...] *)
Definition transistor_rule (s : t) : t :=
  if LayerCellState.bool (ntype s) && LayerCellState.bool (ptype s) then
    if n_on_top s then
      set_ptype s (LayerCellState.set_open (ptype s)
                     (negb (LayerCellState.powered (ntype s))))
    else
      set_ntype s (LayerCellState.set_open (ntype s)
                     (LayerCellState.powered (ptype s)))
  else s.

Definition update_gates (s : t) : t := transistor_rule (capacitor_rule s).

Definition from_cell (cell : Cell.t) : t :=
  let res :=
    mk (LayerCellState.from_layer_cell (Cell.metal cell))
       (LayerCellState.from_layer_cell (Cell.ntype cell))
       (LayerCellState.from_layer_cell (Cell.ptype cell))
       (Cell.capacitor cell) (Cell.via cell) (Cell.n_on_top cell) in
  update_gates res.
End CellState.

(** ** In-place update

    [update_gates] does not build a new cell state: it assigns to the
    [open] attribute of the layer objects the cell state refers to.  Here
    a layer object is a reference into a store, and a cell state holds
    three references. *)

Module InPlace.
Abbreviation ref := nat (only parsing).
Abbreviation store := (ref -> LayerCellState.t) (only parsing).

Record t : Type := mk {
  metal : ref;
  ntype : ref;
  ptype : ref;
  capacitor : bool;
  via : bool;
  n_on_top : bool
}.

(** [h[r].open = b] *)
Definition set_open (r : ref) (b : bool) (h : store) : store :=
  <[r := LayerCellState.set_open (h r) b]> h.

Definition update_gates (o : t) (h : store) : store :=
  let h1 :=
    if capacitor o && LayerCellState.bool (h (metal o)) then
      if negb (LayerCellState.powered (h (metal o))) then
        set_open (metal o) false h
      else h
    else h in
  if LayerCellState.bool (h1 (ntype o)) && LayerCellState.bool (h1 (ptype o))
  then
    if n_on_top o then
      set_open (ptype o) (negb (LayerCellState.powered (h1 (ntype o)))) h1
    else
      set_open (ntype o) (LayerCellState.powered (h1 (ptype o))) h1
  else h1.

(** [from_cell] creates three new layer objects, here at the first three
    references [fresh], [fresh + 1], [fresh + 2] not yet in use, and one
    cell state that refers to them. *)
Definition from_cell (cell : Cell.t) (fresh : ref) (h : store) : t * store :=
  let h1 := <[fresh := LayerCellState.from_layer_cell (Cell.metal cell)]> h in
  let h2 := <[S fresh := LayerCellState.from_layer_cell (Cell.ntype cell)]> h1 in
  let h3 :=
    <[S (S fresh) := LayerCellState.from_layer_cell (Cell.ptype cell)]> h2 in
  let res := mk fresh (S fresh) (S (S fresh))
                (Cell.capacitor cell) (Cell.via cell) (Cell.n_on_top cell) in
  (res, update_gates res h3).

(** The cell state an object denotes in a store. *)
Definition read (o : t) (h : store) : CellState.t :=
  CellState.mk (h (metal o)) (h (ntype o)) (h (ptype o))
               (capacitor o) (via o) (n_on_top o).

(** The three layers are three different objects. *)
Definition separate (o : t) : Prop :=
  metal o ≠ ntype o ∧ metal o ≠ ptype o ∧ ntype o ≠ ptype o.
End InPlace.

(** * Vocabulary of the specification *)

(** "exactly two connections whose unit deltas sum to the zero vector" *)
Definition straight_channel (s : gset Direction) : Prop :=
  ∃ d1 d2, d1 ≠ d2 ∧ s = {[d1; d2]}
           ∧ Coords.add (Dir.delta d1) (Dir.delta d2) = Coords.mk 0 0.

(** Both silicon layers present. *)
Definition transistor (c : Cell.t) : Prop :=
  LayerCell.value (Cell.ntype c) = true ∧ LayerCell.value (Cell.ptype c) = true.

(** The emitter/collector layer and the base layer of a transistor. *)
Definition emitter_collector (c : Cell.t) : LayerCell.t :=
  if Cell.n_on_top c then Cell.ptype c else Cell.ntype c.

Definition base (c : Cell.t) : LayerCell.t :=
  if Cell.n_on_top c then Cell.ntype c else Cell.ptype c.

Definition transistor_geometry (c : Cell.t) : Prop :=
  straight_channel (LayerCell.connections (emitter_collector c))
  ∧ ∃ d, d ∈ LayerCell.connections (base c).

(** "capacitors never overlap silicon" *)
Definition capacitor_placement (c : Cell.t) : Prop :=
  Cell.capacitor c = true →
  LayerCell.value (Cell.ntype c) = false ∧ LayerCell.value (Cell.ptype c) = false.

(** Exactly one of the two silicon layers is present. *)
Definition one_silicon (c : Cell.t) : Prop :=
  (LayerCell.value (Cell.ntype c) = true ∨ LayerCell.value (Cell.ptype c) = true)
  ∧ ¬ transistor c.

Definition via_placement (c : Cell.t) : Prop :=
  Cell.via c = true → one_silicon c.

(** The grid has six columns of five cells. *)
Definition well_sized (s : Solution.t) : Prop :=
  length (Solution.cells s) = 6%nat
  ∧ Forall (λ a, length a = 5%nat) (Solution.cells s).

(** The cell at [(x, y)] of the grid, if there is one. *)
Definition cell_at (s : Solution.t) (x y : Z) : option Cell.t :=
  if bool_decide (0 <= x ∧ 0 <= y) then
    col ← Solution.cells s !! Z.to_nat x; col !! Z.to_nat y
  else None.

(** One of the three pin positions on either side of the board. *)
Definition pin_position (n : Coords.t) : Prop :=
  (Coords.x n = -1 ∨ Coords.x n = 6)
  ∧ (Coords.y n = 0 ∨ Coords.y n = 2 ∨ Coords.y n = 4).

(** The connection of layer [layer] of the cell at [(x, y)] in direction
    [d] is reciprocated by its neighbour, or is a legal boundary pin. *)
Definition reciprocated (s : Solution.t) (x y : Z) (layer : Layer)
    (d : Direction) : Prop :=
  let n := Coords.add (Coords.mk x y) (Dir.delta d) in
  if Coords.in_bounds n then
    ∃ nc, cell_at s (Coords.x n) (Coords.y n) = Some nc
          ∧ Dir.opposite d ∈ LayerCell.connections (Cell.layer nc layer)
  else layer = METAL_LAYER ∧ pin_position n.

(** A check that can only fail on an assertion. *)
Definition asserting (r : result unit) : Prop :=
  r = Passed ∨ r = Raise AssertionError.

(** The state the specification starts from: the cell's layers copied,
    nothing powered, everything open. *)
Definition unpowered (l : LayerCell.t) : LayerCellState.t :=
  {| LayerCellState.value := LayerCell.value l;
     LayerCellState.connections := LayerCell.connections l;
     LayerCellState.powered := false;
     LayerCellState.open := true |}.

Definition unpowered_state (cell : Cell.t) : CellState.t :=
  {| CellState.metal := unpowered (Cell.metal cell);
     CellState.ntype := unpowered (Cell.ntype cell);
     CellState.ptype := unpowered (Cell.ptype cell);
     CellState.capacitor := Cell.capacitor cell;
     CellState.via := Cell.via cell;
     CellState.n_on_top := Cell.n_on_top cell |}.

(** The sentence of the specification about capacitors, as it is stated:
    an unpowered metal layer is closed, and a powered one is open after
    [update_gates]. *)
Definition capacitor_claim (s : CellState.t) : Prop :=
  CellState.capacitor s = true →
  LayerCellState.value (CellState.metal s) = true →
  (LayerCellState.powered (CellState.metal s) = false →
   LayerCellState.open (CellState.metal (CellState.update_gates s)) = false)
  ∧ (LayerCellState.powered (CellState.metal s) = true →
     LayerCellState.open (CellState.metal (CellState.update_gates s)) = true).

(** * Sample layouts and states *)

(** A layer-cell that is absent and empty, and one that is absent but
    still connected upwards. *)
Definition absent : LayerCell.t := LayerCell.mk false ∅.
Definition dangling : LayerCell.t := LayerCell.mk false {[UP]}.

Definition empty_cell : Cell.t := Cell.mk absent absent absent false false false.

Definition metal_cell (conns : gset Direction) : Cell.t :=
  Cell.mk (LayerCell.mk true conns) absent absent false false false.

(** A via on raw n-type silicon, wired to the left. *)
Definition via_cell : Cell.t :=
  Cell.mk (LayerCell.mk true {[LEFT]}) (LayerCell.mk true {[LEFT]}) absent
          false true false.

(** A capacitor on a metal track. *)
Definition capacitor_cell : Cell.t :=
  Cell.mk (LayerCell.mk true {[LEFT]}) absent absent true false false.

(** A transistor whose n-type channel runs left to right under a p-type
    base that is driven from above. *)
Definition npn_cell : Cell.t :=
  Cell.mk absent (LayerCell.mk true {[LEFT; RIGHT]}) (LayerCell.mk true {[UP]})
          false false false.

(** A board whose only wiring is a metal track from the pin left of
    [(0, 0)] into [(1, 0)]. *)
Definition pin_board : Solution.t :=
  Solution.mk
    ((metal_cell {[LEFT; RIGHT]} :: replicate 4 empty_cell)
     :: (metal_cell {[LEFT]} :: replicate 4 empty_cell)
     :: replicate 4 (replicate 5 empty_cell))
    None None.

(** A transistor cell state with an unpowered n-type base on top. *)
Definition pnp_state : CellState.t :=
  CellState.mk (LayerCellState.mk false ∅ false true)
               (LayerCellState.mk true {[UP]} false true)
               (LayerCellState.mk true {[LEFT; RIGHT]} false false)
               false false true.

(** A capacitor that was closed while unpowered and has since been
    powered: the initial state of [capacitor_cell] with the powered flag of
    its metal layer raised. *)
Definition charged_closed : CellState.t :=
  CellState.mk (LayerCellState.mk true {[LEFT]} true false)
               (LayerCellState.mk false ∅ false false)
               (LayerCellState.mk false ∅ false true)
               true false false.

(** A capacitor that is powered and open. *)
Definition charged_open : CellState.t :=
  CellState.mk (LayerCellState.mk true {[LEFT]} true true)
               (LayerCellState.mk false ∅ false true)
               (LayerCellState.mk false ∅ false true)
               true false false.

(** A plain n-type wire: no p-type layer, nothing powered, all open. *)
Definition ntype_wire : CellState.t :=
  CellState.mk (LayerCellState.mk false ∅ false true)
               (LayerCellState.mk true {[LEFT; RIGHT]} false true)
               (LayerCellState.mk false ∅ false true)
               false false false.

(** One layer object standing in for all three layers of a cell state. *)
Definition shared_layers : InPlace.t := InPlace.mk 0 0 0 false false true.

Definition closed_everywhere (r : nat) : LayerCellState.t :=
  LayerCellState.mk true ∅ false false.

(** Both silicon layers wired upwards. *)
Definition clashing_cell : Cell.t :=
  Cell.mk absent (LayerCell.mk true {[UP]}) (LayerCell.mk true {[UP]})
          false false false.

(** A capacitor with no metal layer under it. *)
Definition bare_capacitor : Cell.t :=
  Cell.mk absent absent absent true false false.

(** A solution without any column, and a board of the right size whose
    first cell has a connection on an absent layer. *)
Definition no_board : Solution.t := Solution.mk [] None None.

Definition dangling_board : Solution.t :=
  Solution.mk
    ((Cell.mk dangling absent absent false false false
      :: replicate 4 empty_cell)
     :: replicate 5 (replicate 5 empty_cell))
    None None.

(** [ntype_wire] with a p-type layer under it: the same flags, another
    presence value. *)
Definition ntype_over_ptype : CellState.t :=
  CellState.mk (LayerCellState.mk false ∅ false true)
               (LayerCellState.mk true {[LEFT; RIGHT]} false true)
               (LayerCellState.mk true {[UP]} false true)
               false true false.

(** A capacitor cell state on three separate layer objects, in a store
    where every object is an unpowered open layer. *)
Definition three_layers : InPlace.t := InPlace.mk 0 1 2 true false false.

Definition open_everywhere (r : nat) : LayerCellState.t :=
  LayerCellState.mk true ∅ false true.

(** * Properties *)

(** ** Sequencing of checks *)

Section Sequencing.
Implicit Types r k : result unit.

Lemma assert_Passed b : assert b = Passed ↔ b = true.
Proof. destruct b; simpl; unfold Passed; split; congruence. Qed.

Lemma seq_Passed r k : (r;; k) = Passed ↔ r = Passed ∧ k = Passed.
Proof.
  destruct r as [[]|e]; simpl; unfold Passed.
  - split; [intros ->; auto | intros [_ ->]; auto].
  - split; [discriminate | intros [? _]; discriminate].
Qed.

Lemma for_each_Passed {A} (l : list A) (body : A → result unit) :
  for_each l body = Passed ↔ ∀ a, a ∈ l → body a = Passed.
Proof.
  induction l as [|a l IH]; simpl.
  - split; [intros _ a Ha; inversion Ha | reflexivity].
  - change (foldr (λ a k, body a;; k) Passed l) with (for_each l body).
    rewrite seq_Passed, IH. split.
    + intros [Ha Hl] b [->|Hb]%elem_of_cons; auto.
    + intros H. split; [apply H; left | intros b Hb; apply H; right; auto].
Qed.

Lemma bind_Return {A B} (a : A) (f : A → result B) : Return a ≫= f = f a.
Proof. reflexivity. Qed.

Lemma asserting_Passed : asserting Passed.
Proof. left; reflexivity. Qed.

Lemma asserting_assert b : asserting (assert b).
Proof. destruct b; [left | right]; reflexivity. Qed.

Lemma asserting_seq r k : asserting r → asserting k → asserting (r;; k).
Proof. intros [->| ->] Hk; simpl; [exact Hk | right; reflexivity]. Qed.

Lemma asserting_for_each {A} (l : list A) (body : A → result unit) :
  (∀ a, a ∈ l → asserting (body a)) → asserting (for_each l body).
Proof.
  induction l as [|a l IH]; simpl; intros H.
  - apply asserting_Passed.
  - apply asserting_seq; [apply H; left |].
    apply IH. intros b Hb. apply H. right; exact Hb.
Qed.

Lemma asserting_not_Passed r :
  asserting r → r ≠ Passed → r = Raise AssertionError.
Proof. intros [-> | ->] H; [contradiction | reflexivity]. Qed.
End Sequencing.

Create HintDb checks.
#[local] Hint Resolve asserting_Passed asserting_assert asserting_seq : checks.

(** ** Connection sets *)

Lemma set_bool_false (s : gset Direction) : set_bool s = false ↔ s = ∅.
Proof.
  unfold set_bool. rewrite bool_decide_eq_false.
  split; [intros H; destruct (decide (s = ∅)); tauto | intros -> H; tauto].
Qed.

(** "at least one connection" *)
Lemma len_ge_1 (s : gset Direction) : 1 <= len s ↔ ∃ d, d ∈ s.
Proof.
  unfold len. split.
  - intros H. apply size_pos_elem_of. lia.
  - intros [d Hd]. destruct (decide (size s = 0%nat)) as [E|E]; [|lia].
    apply size_empty_iff in E. set_solver.
Qed.

Lemma Coords_eqb_eq c o : Coords.eqb c o = true ↔ c = o.
Proof.
  destruct c as [cx cy], o as [ox oy]. unfold Coords.eqb; simpl.
  rewrite andb_true_iff, !bool_decide_eq_true.
  split; [intros [-> ->]; reflexivity | intros [= -> ->]; auto].
Qed.

Lemma straight_channel_iff (s : gset Direction) :
  len s = 2 ∧ sum_deltas s = Coords.mk 0 0 ↔ straight_channel s.
Proof.
  split.
  - intros [Hlen Hsum]. unfold len in Hlen. unfold sum_deltas in Hsum.
    assert (Hsz : length (elements s) = 2%nat)
      by (unfold size, set_size in Hlen; simpl in Hlen; lia).
    pose proof (NoDup_elements s) as Hnd.
    assert (Hs : s = list_to_set (elements s))
      by (symmetry; apply list_to_set_elements_L).
    destruct (elements s) as [|a [|b [|? ?]]]; try discriminate.
    exists a, b. split; [|split].
    + intros ->. inversion Hnd as [|? ? Hin _]; subst. apply Hin. left.
    + rewrite Hs. simpl. rewrite (right_id_L ∅ (∪)). reflexivity.
    + simpl in Hsum. destruct a, b; vm_compute in Hsum |- *; congruence.
  - intros (d1 & d2 & Hne & -> & Hsum).
    destruct d1, d2; try (exfalso; apply Hne; reflexivity);
      vm_compute in Hsum; try discriminate Hsum;
      split; vm_compute; reflexivity.
Qed.

(** ** The cell validator *)

Lemma LayerCell_check_asserting l : asserting (LayerCell.check l).
Proof. unfold LayerCell.check. destruct (negb _); auto with checks. Qed.

Lemma LayerCell_check_Passed l :
  LayerCell.check l = Passed
  ↔ (LayerCell.value l = false → LayerCell.connections l = ∅).
Proof.
  unfold LayerCell.check. destruct (LayerCell.value l); simpl.
  - split; [discriminate 2 | reflexivity].
  - rewrite assert_Passed, negb_true_iff, set_bool_false. tauto.
Qed.

Lemma Cell_check_asserting c : asserting (Cell.check c).
Proof.
  unfold Cell.check.
  repeat first
    [ apply asserting_seq
    | apply LayerCell_check_asserting
    | apply asserting_assert
    | apply asserting_Passed
    | match goal with |- asserting (if ?b then _ else _) => destruct b end ].
Qed.

Lemma is_transistor_true c :
  LayerCell.bool (Cell.is_transistor c) = true ↔ transistor c.
Proof.
  unfold Cell.is_transistor, transistor, LayerCell.bool.
  destruct (LayerCell.value (Cell.ntype c)) eqn:E; rewrite ?E; intuition congruence.
Qed.

(** What a cell that passes [Cell.check] satisfies, rule by rule. *)
Lemma Cell_check_Passed c :
  Cell.check c = Passed ↔
    LayerCell.check (Cell.metal c) = Passed
    ∧ LayerCell.check (Cell.ntype c) = Passed
    ∧ LayerCell.check (Cell.ptype c) = Passed
    ∧ capacitor_placement c
    ∧ via_placement c
    ∧ LayerCell.connections (Cell.ntype c) ∩ LayerCell.connections (Cell.ptype c) = ∅
    ∧ (transistor c → transistor_geometry c).
Proof.
  unfold Cell.check. rewrite !seq_Passed.
  assert (Hcap : (if Cell.capacitor c then
                    assert (negb (LayerCell.bool (Cell.ntype c))
                            && negb (LayerCell.bool (Cell.ptype c)))
                  else Passed) = Passed ↔ capacitor_placement c).
  { unfold capacitor_placement, LayerCell.bool.
    destruct (Cell.capacitor c).
    - rewrite assert_Passed, andb_true_iff, !negb_true_iff. tauto.
    - split; [discriminate 2 | reflexivity]. }
  assert (Hvia : (if Cell.via c then
                    assert (LayerCell.bool (Cell.ntype c)
                            || LayerCell.bool (Cell.ptype c));;
                    assert (negb (LayerCell.bool (Cell.is_transistor c)))
                  else Passed) = Passed ↔ via_placement c).
  { unfold via_placement, one_silicon. destruct (Cell.via c).
    - rewrite seq_Passed, !assert_Passed, orb_true_iff, negb_true_iff.
      rewrite <- not_true_iff_false, is_transistor_true.
      unfold LayerCell.bool. tauto.
    - split; [discriminate 2 | reflexivity]. }
  assert (Htr : (if LayerCell.bool (Cell.is_transistor c) then
                   let base := if Cell.n_on_top c then Cell.ntype c
                               else Cell.ptype c in
                   let emi_col := if Cell.n_on_top c then Cell.ptype c
                                  else Cell.ntype c in
                   assert (bool_decide (len (LayerCell.connections emi_col) = 2)
                           && Coords.eqb
                                (sum_deltas (LayerCell.connections emi_col))
                                (Coords.mk 0 0));;
                   assert (bool_decide (1 <= len (LayerCell.connections base)))
                 else Passed) = Passed
                ↔ (transistor c → transistor_geometry c)).
  { rewrite <- is_transistor_true.
    destruct (LayerCell.bool (Cell.is_transistor c)).
    - cbv zeta. rewrite seq_Passed, !assert_Passed, andb_true_iff.
      rewrite !bool_decide_eq_true, Coords_eqb_eq, straight_channel_iff, len_ge_1.
      unfold transistor_geometry, emitter_collector, base. tauto.
    - split; [discriminate 2 | reflexivity]. }
  rewrite Hcap, Hvia, Htr, assert_Passed, negb_true_iff, set_bool_false.
  tauto.
Qed.

(** ** The board validator *)

Lemma in_bounds_true n :
  Coords.in_bounds n = true
  ↔ (0 <= Coords.x n < 6) ∧ (0 <= Coords.y n < 5).
Proof.
  unfold Coords.in_bounds.
  rewrite !andb_true_iff, !bool_decide_eq_true. tauto.
Qed.

Lemma getitem_nonneg {A} (l : list A) i :
  0 <= i →
  getitem l i = match l !! Z.to_nat i with
                | Some a => Return a
                | None => Raise IndexError
                end.
Proof.
  intros Hi. unfold getitem.
  rewrite (bool_decide_eq_true_2 (0 <= i)) by exact Hi.
  rewrite (bool_decide_eq_true_2 (0 <= i)) by exact Hi.
  reflexivity.
Qed.

Lemma size_assert_true s :
  bool_decide (length (Solution.cells s) = 6%nat)
  && forallb (λ a, bool_decide (length a = 5%nat)) (Solution.cells s) = true
  ↔ well_sized s.
Proof.
  unfold well_sized. rewrite andb_true_iff, bool_decide_eq_true.
  assert (∀ l : list (list Cell.t),
             forallb (λ a, bool_decide (length a = 5%nat)) l = true
             ↔ Forall (λ a, length a = 5%nat) l) as ->; [|tauto].
  induction l as [|a l IH]; simpl.
  - split; [constructor | reflexivity].
  - rewrite andb_true_iff, bool_decide_eq_true, IH, Forall_cons. tauto.
Qed.

Section WellSized.
Variable s : Solution.t.
Hypothesis Hsize : well_sized s.

Lemma well_sized_cell x y :
  0 <= x < 6 → 0 <= y < 5 →
  ∃ col c, getitem (Solution.cells s) x = Return col
           ∧ getitem col y = Return c
           ∧ cell_at s x y = Some c.
Proof.
  intros Hx Hy. destruct Hsize as [Hlen Hall].
  destruct (lookup_lt_is_Some_2 (Solution.cells s) (Z.to_nat x))
    as [col Hcol]; [lia|].
  pose proof (Forall_lookup_1 _ _ _ _ Hall Hcol) as Hcl. simpl in Hcl.
  destruct (lookup_lt_is_Some_2 col (Z.to_nat y)) as [c Hc]; [lia|].
  exists col, c. rewrite !getitem_nonneg by lia. rewrite Hcol, Hc.
  unfold cell_at. rewrite bool_decide_eq_true_2 by lia.
  rewrite Hcol. simpl. auto.
Qed.

Lemma cell_at_in_bounds x y c :
  cell_at s x y = Some c → (0 <= x < 6) ∧ (0 <= y < 5).
Proof.
  unfold cell_at. destruct Hsize as [Hlen Hall].
  case_bool_decide as Hxy; [|discriminate].
  destruct (Solution.cells s !! Z.to_nat x) as [col|] eqn:Hcol;
    simpl; [|discriminate].
  intros Hc.
  pose proof (Forall_lookup_1 _ _ _ _ Hall Hcol) as Hcl. simpl in Hcl.
  apply lookup_lt_Some in Hcol, Hc. lia.
Qed.

Lemma check_connection_asserting x y layer d :
  asserting (Solution.check_connection s x y layer d).
Proof.
  unfold Solution.check_connection. cbv zeta.
  destruct (Coords.in_bounds _) eqn:Hin; [|apply asserting_assert].
  apply in_bounds_true in Hin as [Hnx Hny].
  destruct (well_sized_cell _ _ Hnx Hny) as (col & nc & -> & Hnc & _).
  rewrite bind_Return, Hnc, bind_Return. apply asserting_assert.
Qed.

Lemma check_connection_Passed x y layer d :
  Solution.check_connection s x y layer d = Passed
  ↔ reciprocated s x y layer d.
Proof.
  unfold Solution.check_connection, reciprocated. cbv zeta.
  destruct (Coords.in_bounds _) eqn:Hin.
  - apply in_bounds_true in Hin as [Hnx Hny].
    destruct (well_sized_cell _ _ Hnx Hny) as (col & nc & -> & Hnc & ->).
    rewrite bind_Return, Hnc, bind_Return.
    rewrite assert_Passed, bool_decide_eq_true. split.
    + intros H. exists nc. auto.
    + intros (nc' & [= <-] & H). exact H.
  - rewrite assert_Passed, !andb_true_iff, !bool_decide_eq_true.
    unfold pin_position.
    rewrite !elem_of_cons, !elem_of_nil. tauto.
Qed.

(** The loop body at a cell of the grid: the cell's own check, then
    every connection of every layer. *)
Lemma check_cell_at x y c :
  cell_at s x y = Some c →
  Solution.check_cell s x y =
    (Cell.check c;;
     for_each Layers (λ layer,
       for_each (elements (LayerCell.connections (Cell.layer c layer)))
                (Solution.check_connection s x y layer))).
Proof.
  intros Hc. destruct (cell_at_in_bounds _ _ _ Hc) as [Hx Hy].
  destruct (well_sized_cell _ _ Hx Hy) as (col & c' & Hcol & Hc' & Hat).
  rewrite Hc in Hat. injection Hat as <-.
  unfold Solution.check_cell. rewrite Hcol, bind_Return, Hc'. reflexivity.
Qed.

Lemma check_cell_asserting x y :
  0 <= x < 6 → 0 <= y < 5 → asserting (Solution.check_cell s x y).
Proof.
  intros Hx Hy.
  destruct (well_sized_cell _ _ Hx Hy) as (col & c & _ & _ & Hat).
  rewrite (check_cell_at _ _ _ Hat).
  apply asserting_seq; [apply Cell_check_asserting|].
  apply asserting_for_each. intros layer _.
  apply asserting_for_each. intros d _.
  apply check_connection_asserting.
Qed.
End WellSized.

Lemma Solution_check_asserting s : asserting (Solution.check s).
Proof.
  unfold Solution.check.
  destruct (bool_decide _ && forallb _ _) eqn:Hsz;
    [|right; reflexivity].
  apply size_assert_true in Hsz.
  apply asserting_seq; [apply asserting_assert|].
  apply asserting_for_each. intros x Hx%elem_of_seqZ.
  apply asserting_for_each. intros y Hy%elem_of_seqZ.
  apply check_cell_asserting; [exact Hsz | lia | lia].
Qed.

(** A board passes exactly when it has the right size, every cell passes
    its own check and every connection is reciprocated or a pin. *)
Lemma Solution_check_Passed s :
  Solution.check s = Passed ↔
    well_sized s
    ∧ ∀ x y c, cell_at s x y = Some c →
        Cell.check c = Passed
        ∧ ∀ layer d, d ∈ LayerCell.connections (Cell.layer c layer) →
            reciprocated s x y layer d.
Proof.
  unfold Solution.check.
  rewrite seq_Passed, assert_Passed, size_assert_true.
  split.
  - intros [Hsz Hloop]. split; [exact Hsz|]. intros x y c Hc.
    destruct (cell_at_in_bounds _ Hsz _ _ _ Hc) as [Hx Hy].
    rewrite for_each_Passed in Hloop.
    specialize (Hloop x). rewrite for_each_Passed in Hloop.
    assert (Hcell : Solution.check_cell s x y = Passed)
      by (apply Hloop; apply elem_of_seqZ; lia).
    rewrite (check_cell_at _ Hsz _ _ _ Hc), seq_Passed in Hcell.
    destruct Hcell as [Hck Hconns]. split; [exact Hck|].
    intros layer d Hd. rewrite for_each_Passed in Hconns.
    assert (Hl : layer ∈ Layers)
      by (unfold Layers; destruct layer; rewrite !elem_of_cons; auto).
    specialize (Hconns layer Hl). rewrite for_each_Passed in Hconns.
    apply (check_connection_Passed _ Hsz). apply Hconns.
    apply elem_of_elements. exact Hd.
  - intros [Hsz Hall]. split; [exact Hsz|].
    apply for_each_Passed. intros x Hx%elem_of_seqZ.
    apply for_each_Passed. intros y Hy%elem_of_seqZ.
    destruct (well_sized_cell _ Hsz x y) as (col & c & _ & _ & Hat);
      [lia | lia |].
    destruct (Hall _ _ _ Hat) as [Hck Hconns].
    rewrite (check_cell_at _ Hsz _ _ _ Hat), seq_Passed.
    split; [exact Hck|].
    apply for_each_Passed. intros layer _.
    apply for_each_Passed. intros d Hd%elem_of_elements.
    apply (check_connection_Passed _ Hsz). apply Hconns. exact Hd.
Qed.

(** ** Validation: the claims *)

(** C8. A conductor-layer cell with present=false and a non-empty
    connection set fails validation (with an assertion error), and one that
    passes validation with present=false has an empty connection set. *)
Theorem LayerCell_check_absent (l : LayerCell.t) :
  LayerCell.value l = false →
  (LayerCell.connections l ≠ ∅ → LayerCell.check l = Raise AssertionError)
  ∧ (LayerCell.check l = Passed → LayerCell.connections l = ∅).
Proof.
  intros Hv. split.
  - intros Hne. apply asserting_not_Passed; [apply LayerCell_check_asserting|].
    rewrite LayerCell_check_Passed. tauto.
  - rewrite LayerCell_check_Passed. tauto.
Qed.

Lemma LayerCell_check_absent_witness :
  LayerCell.check dangling = Raise AssertionError
  ∧ LayerCell.connections absent = ∅.
Proof.
  split.
  - apply (LayerCell_check_absent dangling); [reflexivity|].
    intros H. apply (f_equal size) in H. vm_compute in H. discriminate H.
  - apply (LayerCell_check_absent absent); reflexivity.
Defined.

(** C7. Validation of a cell fails if capacitor=true and either silicon
    layer is present, and fails if via=true unless exactly one of the
    n-type/p-type layers is present; a cell passing validation satisfies
    both placement rules. *)
Theorem Cell_check_placement (c : Cell.t) :
  (Cell.capacitor c = true →
   LayerCell.value (Cell.ntype c) = true ∨ LayerCell.value (Cell.ptype c) = true →
   Cell.check c = Raise AssertionError)
  ∧ (Cell.via c = true → ¬ one_silicon c → Cell.check c = Raise AssertionError)
  ∧ (Cell.check c = Passed → capacitor_placement c ∧ via_placement c).
Proof.
  split; [|split].
  - intros Hcap Hsil. apply asserting_not_Passed; [apply Cell_check_asserting|].
    rewrite Cell_check_Passed. unfold capacitor_placement.
    intros (_ & _ & _ & H & _). destruct (H Hcap) as [Hn Hp].
    destruct Hsil; congruence.
  - intros Hvia Hone. apply asserting_not_Passed; [apply Cell_check_asserting|].
    rewrite Cell_check_Passed. unfold via_placement. tauto.
  - rewrite Cell_check_Passed. tauto.
Qed.

Lemma Cell_check_placement_witness :
  capacitor_placement via_cell ∧ via_placement via_cell.
Proof.
  apply (Cell_check_placement via_cell). vm_compute. reflexivity.
Defined.

(** C4. In a cell where both silicon layers are present, validation
    requires the emitter/collector layer (n-type when n-on-top is false,
    p-type when it is true) to have exactly two connections whose unit
    deltas sum to zero, and the base layer to have at least one
    connection; a cell violating either fails validation. *)
Theorem Cell_check_transistor (c : Cell.t) :
  LayerCell.value (Cell.ntype c) = true →
  LayerCell.value (Cell.ptype c) = true →
  (Cell.check c = Passed → transistor_geometry c)
  ∧ (¬ straight_channel (LayerCell.connections (emitter_collector c)) →
     Cell.check c = Raise AssertionError)
  ∧ (LayerCell.connections (base c) = ∅ → Cell.check c = Raise AssertionError).
Proof.
  intros Hn Hp. assert (Ht : transistor c) by (split; assumption).
  split; [|split].
  - rewrite Cell_check_Passed. tauto.
  - intros Hbad. apply asserting_not_Passed; [apply Cell_check_asserting|].
    rewrite Cell_check_Passed. unfold transistor_geometry. tauto.
  - intros Hbad. apply asserting_not_Passed; [apply Cell_check_asserting|].
    rewrite Cell_check_Passed. unfold transistor_geometry.
    intros (_ & _ & _ & _ & _ & _ & H). destruct (H Ht) as [_ [d Hd]].
    rewrite Hbad in Hd. exact (not_elem_of_empty d Hd).
Qed.

Lemma Cell_check_transistor_witness : transistor_geometry npn_cell.
Proof.
  apply (Cell_check_transistor npn_cell);
    [reflexivity | reflexivity | vm_compute; reflexivity].
Defined.

(** C3. Validation fails on a solution with a connection from a cell
    [(x, y)], layer [layer], direction [d], whose in-bounds neighbour lacks
    the inverse direction in the same layer, or whose neighbour is out of
    bounds unless the layer is metal and the neighbour's coordinate has x
    in {-1, 6} and y in {0, 2, 4}; a solution that passes validation
    satisfies this condition for every connection of every cell and
    layer. *)
Theorem Solution_check_reciprocity (s : Solution.t) (x y : Z) (c : Cell.t)
    (layer : Layer) (d : Direction) :
  cell_at s x y = Some c →
  d ∈ LayerCell.connections (Cell.layer c layer) →
  (¬ reciprocated s x y layer d → Solution.check s = Raise AssertionError)
  ∧ (Solution.check s = Passed → reciprocated s x y layer d).
Proof.
  intros Hc Hd.
  assert (Hpass : Solution.check s = Passed → reciprocated s x y layer d).
  { rewrite Solution_check_Passed. intros [_ Hall].
    destruct (Hall _ _ _ Hc) as [_ Hconns]. apply Hconns. exact Hd. }
  split; [|exact Hpass].
  intros Hbad. apply asserting_not_Passed; [apply Solution_check_asserting|].
  tauto.
Qed.

Lemma Solution_check_reciprocity_witness :
  reciprocated pin_board 0 0 METAL_LAYER LEFT
  ∧ reciprocated pin_board 0 0 METAL_LAYER RIGHT.
Proof.
  split.
  - apply (Solution_check_reciprocity pin_board 0 0 (metal_cell {[LEFT; RIGHT]}));
      [reflexivity | apply (bool_decide_unpack _); vm_compute; exact I
      | vm_compute; reflexivity].
  - apply (Solution_check_reciprocity pin_board 0 0 (metal_cell {[LEFT; RIGHT]}));
      [reflexivity | apply (bool_decide_unpack _); vm_compute; exact I
      | vm_compute; reflexivity].
Defined.

(** ** The gate rule *)

Section Gates.
Import CellState.
Implicit Types s : CellState.t.

(** The capacitor rule touches nothing but the metal layer's open flag,
    and the transistor rule nothing but a silicon layer's. *)
Lemma capacitor_rule_silicon s :
  ntype (capacitor_rule s) = ntype s ∧ ptype (capacitor_rule s) = ptype s.
Proof.
  destruct s as [m n p cap v top]. unfold capacitor_rule. simpl.
  destruct cap, (LayerCellState.powered m); simpl; repeat split; reflexivity.
Qed.

Lemma transistor_rule_metal s : metal (transistor_rule s) = metal s.
Proof.
  destruct s as [m n p cap v top]. unfold transistor_rule. simpl.
  destruct top; simpl; repeat split; reflexivity.
Qed.

Lemma capacitor_rule_flags s :
  capacitor (capacitor_rule s) = capacitor s
  ∧ via (capacitor_rule s) = via s
  ∧ n_on_top (capacitor_rule s) = n_on_top s.
Proof.
  destruct s as [m n p cap v top]. unfold capacitor_rule. simpl.
  destruct cap, (LayerCellState.powered m); simpl; repeat split; reflexivity.
Qed.

Lemma transistor_rule_flags s :
  capacitor (transistor_rule s) = capacitor s
  ∧ via (transistor_rule s) = via s
  ∧ n_on_top (transistor_rule s) = n_on_top s.
Proof.
  destruct s as [m n p cap v top]. unfold transistor_rule. simpl.
  destruct top; simpl; repeat split; reflexivity.
Qed.

(** The open flag of the metal layer after [update_gates]. *)
Lemma update_gates_metal_open s :
  LayerCellState.open (metal (update_gates s)) =
    if capacitor s && negb (LayerCellState.powered (metal s)) then false
    else LayerCellState.open (metal s).
Proof.
  unfold update_gates. rewrite transistor_rule_metal.
  destruct s as [m n p cap v top]. unfold capacitor_rule. simpl.
  destruct cap, (LayerCellState.powered m); reflexivity.
Qed.
(** [update_gates] assigns to open flags only. *)
Lemma update_gates_layer s layer :
  LayerCellState.powered (CellState.layer (update_gates s) layer)
    = LayerCellState.powered (CellState.layer s layer)
  ∧ LayerCellState.value (CellState.layer (update_gates s) layer)
    = LayerCellState.value (CellState.layer s layer)
  ∧ LayerCellState.connections (CellState.layer (update_gates s) layer)
    = LayerCellState.connections (CellState.layer s layer).
Proof.
  destruct s as [m n p cap v top].
  unfold update_gates, capacitor_rule, transistor_rule. simpl.
  destruct layer, cap, top, (LayerCellState.powered m) eqn:E;
    simpl; rewrite ?E; repeat split; reflexivity.
Qed.
End Gates.

(** C1. In a cell state where both silicon layers are present,
    [update_gates] sets the p-type layer's open flag to the negation of the
    n-type layer's powered flag when n-on-top is true, and the n-type
    layer's open flag to the p-type layer's powered flag when n-on-top is
    false; the transistor rule sets no other open flag of the cell: the
    other silicon layer keeps its flag and the metal layer's flag is the
    one the capacitor rule left. *)
Theorem update_gates_transistor (s : CellState.t) :
  LayerCellState.value (CellState.ntype s) = true →
  LayerCellState.value (CellState.ptype s) = true →
  (CellState.n_on_top s = true →
   LayerCellState.open (CellState.ptype (CellState.update_gates s))
     = negb (LayerCellState.powered (CellState.ntype s))
   ∧ LayerCellState.open (CellState.ntype (CellState.update_gates s))
     = LayerCellState.open (CellState.ntype s))
  ∧ (CellState.n_on_top s = false →
     LayerCellState.open (CellState.ntype (CellState.update_gates s))
       = LayerCellState.powered (CellState.ptype s)
     ∧ LayerCellState.open (CellState.ptype (CellState.update_gates s))
       = LayerCellState.open (CellState.ptype s))
  ∧ LayerCellState.open (CellState.metal (CellState.update_gates s))
    = LayerCellState.open (CellState.metal (CellState.capacitor_rule s)).
Proof.
  intros _ _. destruct s as [m n p cap v top].
  unfold CellState.update_gates, CellState.transistor_rule,
    CellState.capacitor_rule. simpl.
  destruct cap, (LayerCellState.powered m), top; simpl;
    (split; [|split]); try discriminate 1; intros; auto.
Qed.

Lemma update_gates_transistor_witness :
  LayerCellState.open (CellState.ptype (CellState.update_gates pnp_state))
    = negb (LayerCellState.powered (CellState.ntype pnp_state))
  ∧ LayerCellState.open (CellState.ntype (CellState.update_gates pnp_state))
    = LayerCellState.open (CellState.ntype pnp_state).
Proof.
  apply (update_gates_transistor pnp_state); reflexivity.
Defined.

(** A capacitor cell starts closed; [charged_closed] is that state once
    its metal layer is powered. *)
Remark from_cell_capacitor_cell :
  CellState.from_cell capacitor_cell =
    CellState.set_metal charged_closed
      (LayerCellState.mk true {[LEFT]} false false).
Proof. vm_compute. reflexivity. Qed.

(** C2, as stated, fails: [update_gates] never raises an open flag of the
    metal layer, so a powered capacitor whose flag is down keeps it down. *)
Lemma capacitor_claim_counterexample : ¬ capacitor_claim charged_closed.
Proof.
  intros H. destruct (H eq_refl eq_refl) as [_ Hopen].
  specialize (Hopen eq_refl). vm_compute in Hopen. discriminate Hopen.
Qed.

(** C2, amended. In a capacitor cell state with a present metal layer,
    [update_gates] clears the metal layer's open flag when that layer is
    not powered, and leaves the flag as it was when the layer is powered:
    an open charged capacitor stays open. *)
Theorem update_gates_capacitor (s : CellState.t) :
  CellState.capacitor s = true →
  LayerCellState.value (CellState.metal s) = true →
  (LayerCellState.powered (CellState.metal s) = false →
   LayerCellState.open (CellState.metal (CellState.update_gates s)) = false)
  ∧ (LayerCellState.powered (CellState.metal s) = true →
     LayerCellState.open (CellState.metal (CellState.update_gates s))
       = LayerCellState.open (CellState.metal s)).
Proof.
  intros Hcap _. rewrite update_gates_metal_open, Hcap.
  split; intros ->; reflexivity.
Qed.

Lemma update_gates_capacitor_witness :
  LayerCellState.open (CellState.metal (CellState.update_gates charged_open))
    = true.
Proof.
  apply (update_gates_capacitor charged_open); reflexivity.
Defined.

(** C5. The gate rule is idempotent: a second application, with the
    powered flags as the first one left them, changes nothing; in
    particular the three open flags are those of a single application. *)
Theorem update_gates_idempotent (s : CellState.t) :
  CellState.update_gates (CellState.update_gates s) = CellState.update_gates s
  ∧ ∀ layer,
      LayerCellState.open
        (CellState.layer (CellState.update_gates (CellState.update_gates s)) layer)
      = LayerCellState.open (CellState.layer (CellState.update_gates s) layer).
Proof.
  assert (H : CellState.update_gates (CellState.update_gates s)
              = CellState.update_gates s).
  { destruct s as [[mv mc mp mo] [nv nc np no] [pv pc pp po] cap via top].
    destruct cap, mp, top; reflexivity. }
  split; [exact H | intros layer; rewrite H; reflexivity].
Qed.

(** C9. [update_gates] leaves every layer's powered flag, presence value
    and connection set unchanged, and the capacitor, via and n-on-top flags
    unchanged: it can only modify open flags. *)
Theorem update_gates_frame (s : CellState.t) :
  (∀ layer,
     LayerCellState.powered (CellState.layer (CellState.update_gates s) layer)
       = LayerCellState.powered (CellState.layer s layer)
     ∧ LayerCellState.value (CellState.layer (CellState.update_gates s) layer)
       = LayerCellState.value (CellState.layer s layer)
     ∧ LayerCellState.connections (CellState.layer (CellState.update_gates s) layer)
       = LayerCellState.connections (CellState.layer s layer))
  ∧ CellState.capacitor (CellState.update_gates s) = CellState.capacitor s
  ∧ CellState.via (CellState.update_gates s) = CellState.via s
  ∧ CellState.n_on_top (CellState.update_gates s) = CellState.n_on_top s.
Proof.
  split; [apply update_gates_layer|].
  destruct (capacitor_rule_flags s) as (Hc & Hv & Ht).
  destruct (transistor_rule_flags (CellState.capacitor_rule s))
    as (Hc' & Hv' & Ht').
  unfold CellState.update_gates. rewrite Hc', Hv', Ht'. auto.
Qed.

(** C6. [from_cell] yields the state whose layers copy the cell's presence
    and connections with powered=false and open=true, after exactly one
    application of [update_gates]; every layer of it has powered=false. *)
Theorem from_cell_unpowered (cell : Cell.t) :
  CellState.from_cell cell = CellState.update_gates (unpowered_state cell)
  ∧ ∀ layer,
      LayerCellState.powered (CellState.layer (CellState.from_cell cell) layer)
      = false.
Proof.
  assert (H : CellState.from_cell cell
              = CellState.update_gates (unpowered_state cell)) by reflexivity.
  split; [exact H|]. intros layer. rewrite H.
  destruct (update_gates_layer (unpowered_state cell) layer) as [-> _].
  destruct layer; reflexivity.
Qed.

(** C10. [update_gates] never raises the metal layer's open flag: if it
    is true after the call, it was true before. *)
Theorem update_gates_metal_never_opens (s : CellState.t) :
  LayerCellState.open (CellState.metal (CellState.update_gates s)) = true →
  LayerCellState.open (CellState.metal s) = true.
Proof.
  rewrite update_gates_metal_open.
  destruct (CellState.capacitor s),
    (LayerCellState.powered (CellState.metal s)); simpl;
    first [discriminate 1 | exact (fun H => H)].
Qed.

Lemma update_gates_metal_never_opens_witness :
  LayerCellState.open (CellState.metal charged_open) = true.
Proof.
  apply (update_gates_metal_never_opens charged_open). reflexivity.
Defined.

(** ** Presence is not consulted by the gate rule

    A [LayerCellState] is always true in a condition, so the guards
    [self.capacitor and self.metal] and [self.ntype and self.ptype] of
    [update_gates] come down to [self.capacitor] and to [True]. *)

Lemma capacitor_rule_unguarded (s : CellState.t) :
  CellState.capacitor_rule s =
    if CellState.capacitor s && negb (LayerCellState.powered (CellState.metal s))
    then CellState.set_metal s (LayerCellState.set_open (CellState.metal s) false)
    else s.
Proof.
  unfold CellState.capacitor_rule.
  destruct (CellState.capacitor s),
    (LayerCellState.powered (CellState.metal s)); reflexivity.
Qed.

Lemma transistor_rule_unguarded (s : CellState.t) :
  CellState.transistor_rule s =
    if CellState.n_on_top s then
      CellState.set_ptype s
        (LayerCellState.set_open (CellState.ptype s)
           (negb (LayerCellState.powered (CellState.ntype s))))
    else
      CellState.set_ntype s
        (LayerCellState.set_open (CellState.ntype s)
           (LayerCellState.powered (CellState.ptype s))).
Proof. reflexivity. Qed.

(** So the n-type layer of a plain wire, with no p-type layer under it,
    is closed by [update_gates]. *)
Remark update_gates_ntype_wire :
  LayerCellState.value (CellState.ptype ntype_wire) = false
  ∧ LayerCellState.open (CellState.ntype ntype_wire) = true
  ∧ LayerCellState.open (CellState.ntype (CellState.update_gates ntype_wire))
    = false.
Proof. repeat split; reflexivity. Qed.

(** ** The in-place method and the function on cell states *)

Section InPlaceRefinement.
Import InPlace.
Implicit Types (o : InPlace.t) (h : nat → LayerCellState.t).

Lemma set_open_same r b h :
  set_open r b h r = LayerCellState.set_open (h r) b.
Proof. unfold set_open. apply fn_lookup_insert. Qed.

Lemma set_open_other r r' b h : r ≠ r' → set_open r b h r' = h r'.
Proof. intros Hne. unfold set_open. apply fn_lookup_insert_ne. exact Hne. Qed.

(** Objects the cell state does not refer to are left alone. *)
Lemma InPlace_update_gates_frame o h r :
  r ≠ metal o → r ≠ ntype o → r ≠ ptype o → update_gates o h r = h r.
Proof.
  intros Hm Hn Hp. unfold update_gates. cbv zeta.
  destruct (capacitor o && _), (negb (LayerCellState.powered (h (metal o)))),
    (n_on_top o); simpl;
    rewrite ?set_open_other by congruence; reflexivity.
Qed.

(** On a cell state whose layers are three different objects, the method
    computes [CellState.update_gates]. *)
Lemma InPlace_update_gates_refines o h :
  separate o →
  read o (update_gates o h) = CellState.update_gates (read o h).
Proof.
  intros (Hmn & Hmp & Hnp).
  unfold read, update_gates, CellState.update_gates,
    CellState.capacitor_rule, CellState.transistor_rule. simpl.
  destruct (capacitor o), (LayerCellState.powered (h (metal o))) eqn:E,
    (n_on_top o); simpl;
    rewrite ?set_open_same, ?set_open_other by congruence;
    rewrite ?set_open_same, ?set_open_other by congruence;
    reflexivity.
Qed.

(** [from_cell] builds such a cell state, and it denotes the value of
    [CellState.from_cell]. *)
Lemma InPlace_from_cell_refines cell fresh h :
  separate (from_cell cell fresh h).1
  ∧ read (from_cell cell fresh h).1 (from_cell cell fresh h).2
    = CellState.from_cell cell.
Proof.
  assert (Hsep : separate (from_cell cell fresh h).1)
    by (unfold separate; simpl; lia).
  split; [exact Hsep|].
  unfold from_cell in *. cbv zeta in *. simpl in Hsep |- *.
  rewrite (InPlace_update_gates_refines _ _ Hsep).
  unfold CellState.from_cell, read. simpl. do 2 f_equal.
  - rewrite !fn_lookup_insert_ne by lia. apply fn_lookup_insert.
  - rewrite fn_lookup_insert_ne by lia. apply fn_lookup_insert.
  - apply fn_lookup_insert.
Qed.
End InPlaceRefinement.

(** Without that separation the two differ: when one object serves as
    every layer, opening the p-type layer opens the metal layer too. *)
Remark InPlace_update_gates_shared :
  LayerCellState.open
    (CellState.metal
       (InPlace.read shared_layers
          (InPlace.update_gates shared_layers closed_everywhere))) = true
  ∧ LayerCellState.open
      (CellState.metal
         (CellState.update_gates
            (InPlace.read shared_layers closed_everywhere))) = false.
Proof. split; reflexivity. Qed.

(** * Further properties of the code *)

(** ** Geometry *)

(** X1. [opposite] is an involution without fixed point. *)
Theorem Dir_opposite_involutive (d : Direction) :
  Dir.opposite (Dir.opposite d) = d ∧ Dir.opposite d ≠ d.
Proof. destruct d; split; (reflexivity || discriminate). Qed.

(** X2. A step in a direction followed by a step in the opposite direction
    leads back to the start. *)
Theorem Dir_step_back (c : Coords.t) (d : Direction) :
  Coords.add (Coords.add c (Dir.delta d)) (Dir.delta (Dir.opposite d)) = c.
Proof.
  destruct c as [cx cy], d; unfold Coords.add; simpl; f_equal; lia.
Qed.

(** X3. From a cell of the board, a step leaves the board exactly when it
    crosses the edge the cell lies on. *)
Theorem neighbour_out_of_bounds (c : Coords.t) (d : Direction) :
  Coords.in_bounds c = true →
  Coords.in_bounds (Coords.add c (Dir.delta d)) = false
  ↔ (d = LEFT ∧ Coords.x c = 0) ∨ (d = RIGHT ∧ Coords.x c = 5)
    ∨ (d = DOWN ∧ Coords.y c = 0) ∨ (d = UP ∧ Coords.y c = 4).
Proof.
  intros [Hx Hy]%in_bounds_true.
  rewrite <- not_true_iff_false, in_bounds_true.
  destruct c as [cx cy]. simpl in Hx, Hy.
  destruct d; simpl; split;
    try (intros [[? ?]|[[? ?]|[[? ?]|[? ?]]]]; try discriminate; lia);
    intros Hout.
  - right; left. split; [reflexivity | lia].
  - do 3 right. split; [reflexivity | lia].
  - left. split; [reflexivity | lia].
  - do 2 right; left. split; [reflexivity | lia].
Qed.

Lemma neighbour_out_of_bounds_witness :
  Coords.in_bounds (Coords.add (Coords.mk 0 3) (Dir.delta LEFT)) = false.
Proof.
  apply (neighbour_out_of_bounds (Coords.mk 0 3) LEFT); [reflexivity|].
  left. split; reflexivity.
Defined.

Lemma foldl_delta_permutation (l l' : list Direction) :
  l ≡ₚ l' →
  ∀ acc, foldl (λ a d, Coords.add a (Dir.delta d)) acc l
         = foldl (λ a d, Coords.add a (Dir.delta d)) acc l'.
Proof.
  induction 1 as [|d l l' _ IH|d1 d2 l|l1 l2 l3 _ IH1 _ IH2]; intros acc; simpl.
  - reflexivity.
  - apply IH.
  - f_equal. destruct acc as [ax ay]. unfold Coords.add. simpl. f_equal; lia.
  - rewrite IH1. apply IH2.
Qed.

(** X4. The sum of the deltas of a connection set is the same in whatever
    order the set is iterated. *)
Theorem sum_deltas_any_order (s : gset Direction) (l : list Direction) :
  l ≡ₚ elements s →
  foldl (λ a d, Coords.add a (Dir.delta d)) (Coords.mk 0 0) l = sum_deltas s.
Proof. intros Hl. unfold sum_deltas. apply foldl_delta_permutation, Hl. Qed.

Lemma sum_deltas_any_order_witness :
  foldl (λ a d, Coords.add a (Dir.delta d)) (Coords.mk 0 0) [UP; LEFT; DOWN]
  = sum_deltas {[LEFT; UP; DOWN]}.
Proof.
  apply (sum_deltas_any_order {[LEFT; UP; DOWN]} [UP; LEFT; DOWN]).
  assert (E : elements ({[LEFT; UP; DOWN]} : gset Direction) = [DOWN; LEFT; UP])
    by (vm_compute; reflexivity).
  rewrite E. solve_Permutation.
Defined.

(** ** The cell validator, rule by rule *)

Lemma straight_channel_cases (s : gset Direction) :
  straight_channel s → s = {[LEFT; RIGHT]} ∨ s = {[UP; DOWN]}.
Proof.
  intros (d1 & d2 & Hne & -> & Hsum).
  destruct d1, d2; try (exfalso; apply Hne; reflexivity);
    vm_compute in Hsum; try discriminate Hsum.
  - left. apply (comm_L (∪)).
  - right. reflexivity.
  - left. reflexivity.
  - right. apply (comm_L (∪)).
Qed.

Lemma disjoint_perpendicular (s b : gset Direction) :
  s ∩ b = ∅ →
  (s = {[LEFT; RIGHT]} → b ⊆ {[UP; DOWN]})
  ∧ (s = {[UP; DOWN]} → b ⊆ {[LEFT; RIGHT]}).
Proof.
  intros Hdisj.
  assert (Hno : ∀ d, d ∈ s → d ∈ b → False).
  { intros d Hs Hb. apply (not_elem_of_empty (C:=gset Direction) d).
    rewrite <- Hdisj. apply elem_of_intersection. auto. }
  split; intros -> d Hd; destruct d;
    rewrite elem_of_union, !elem_of_singleton; auto;
    exfalso; (eapply Hno; [|exact Hd]);
    rewrite elem_of_union, !elem_of_singleton; auto.
Qed.

(** X5. [Cell.check] fails with an assertion error or not at all, and it
    passes exactly when: no absent layer has a connection, a capacitor has
    no silicon, a via has exactly one silicon layer, the two silicon layers
    share no direction, and a transistor has a straight channel and a
    connected base. *)
Theorem Cell_check_characterisation (c : Cell.t) :
  (Cell.check c = Passed ∨ Cell.check c = Raise AssertionError)
  ∧ (Cell.check c = Passed ↔
       (∀ layer, LayerCell.value (Cell.layer c layer) = false →
                 LayerCell.connections (Cell.layer c layer) = ∅)
       ∧ capacitor_placement c
       ∧ via_placement c
       ∧ (∀ d, d ∈ LayerCell.connections (Cell.ntype c) →
               d ∉ LayerCell.connections (Cell.ptype c))
       ∧ (transistor c → transistor_geometry c)).
Proof.
  split; [apply Cell_check_asserting|].
  rewrite Cell_check_Passed, !LayerCell_check_Passed. split.
  - intros (Hm & Hn & Hp & Hcap & Hvia & Hdisj & Htr).
    split; [intros []; assumption|].
    split; [exact Hcap|]. split; [exact Hvia|]. split; [|exact Htr].
    intros d Hd Hd'. apply (not_elem_of_empty (C:=gset Direction) d).
    rewrite <- Hdisj. apply elem_of_intersection. auto.
  - intros (Hl & Hcap & Hvia & Hdisj & Htr).
    split; [apply (Hl METAL_LAYER)|]. split; [apply (Hl NTYPE_LAYER)|].
    split; [apply (Hl PTYPE_LAYER)|].
    split; [exact Hcap|]. split; [exact Hvia|]. split; [|exact Htr].
    apply set_eq. intros d. rewrite elem_of_intersection.
    split; [intros [Hn Hp]; destruct (Hdisj d Hn Hp)
           | intros H; destruct (not_elem_of_empty d H)].
Qed.

(** X6. A cell whose n-type and p-type layers are connected in the same
    direction fails validation. *)
Theorem Cell_check_shared_direction (c : Cell.t) (d : Direction) :
  d ∈ LayerCell.connections (Cell.ntype c) →
  d ∈ LayerCell.connections (Cell.ptype c) →
  Cell.check c = Raise AssertionError.
Proof.
  intros Hn Hp. apply asserting_not_Passed; [apply Cell_check_asserting|].
  rewrite Cell_check_Passed. intros (_ & _ & _ & _ & _ & Hdisj & _).
  apply (not_elem_of_empty (C:=gset Direction) d).
  rewrite <- Hdisj. apply elem_of_intersection. auto.
Qed.

Lemma Cell_check_shared_direction_witness :
  Cell.check clashing_cell = Raise AssertionError.
Proof.
  apply (Cell_check_shared_direction clashing_cell UP);
    apply (bool_decide_unpack _); vm_compute; exact I.
Defined.

(** X7. No cell that passes validation is both a capacitor and a via. *)
Theorem Cell_check_capacitor_no_via (c : Cell.t) :
  Cell.check c = Passed → Cell.capacitor c = true → Cell.via c = false.
Proof.
  rewrite Cell_check_Passed. intros (_ & _ & _ & Hcap & Hvia & _) Hc.
  destruct (Cell.via c) eqn:Hv; [|reflexivity].
  destruct (Hcap Hc) as [Hn Hp]. destruct (Hvia Hv) as [[H|H] _];
    congruence.
Qed.

Lemma Cell_check_capacitor_no_via_witness : Cell.via bare_capacitor = false.
Proof.
  apply (Cell_check_capacitor_no_via bare_capacitor);
    [vm_compute; reflexivity | reflexivity].
Defined.

(** X8. In a transistor that passes validation the channel runs left-right
    with the base connected only up or down, or the channel runs up-down
    with the base connected only left or right. *)
Theorem Cell_check_channel (c : Cell.t) :
  Cell.check c = Passed → transistor c →
  (LayerCell.connections (emitter_collector c) = {[LEFT; RIGHT]}
   ∧ LayerCell.connections (base c) ⊆ {[UP; DOWN]})
  ∨ (LayerCell.connections (emitter_collector c) = {[UP; DOWN]}
     ∧ LayerCell.connections (base c) ⊆ {[LEFT; RIGHT]}).
Proof.
  rewrite Cell_check_Passed. intros (_ & _ & _ & _ & _ & Hdisj & Htr) Ht.
  destruct (Htr Ht) as [Hch _].
  assert (Hd : LayerCell.connections (emitter_collector c)
               ∩ LayerCell.connections (base c) = ∅).
  { unfold emitter_collector, base. destruct (Cell.n_on_top c);
      [rewrite (comm_L (∩)) |]; exact Hdisj. }
  destruct (disjoint_perpendicular _ _ Hd) as [Hlr Hud].
  destruct (straight_channel_cases _ Hch) as [E|E]; [left | right]; auto.
Qed.

Lemma Cell_check_channel_witness :
  (LayerCell.connections (emitter_collector npn_cell) = {[LEFT; RIGHT]}
   ∧ LayerCell.connections (base npn_cell) ⊆ {[UP; DOWN]})
  ∨ (LayerCell.connections (emitter_collector npn_cell) = {[UP; DOWN]}
     ∧ LayerCell.connections (base npn_cell) ⊆ {[LEFT; RIGHT]}).
Proof.
  apply (Cell_check_channel npn_cell);
    [vm_compute; reflexivity | split; reflexivity].
Defined.

(** X9. In a cell that passes validation, a layer that has a connection is
    present. *)
Theorem Cell_check_connected_present (c : Cell.t) (layer : Layer)
    (d : Direction) :
  Cell.check c = Passed →
  d ∈ LayerCell.connections (Cell.layer c layer) →
  LayerCell.value (Cell.layer c layer) = true.
Proof.
  rewrite Cell_check_Passed, !LayerCell_check_Passed.
  intros (Hm & Hn & Hp & _) Hd.
  destruct (LayerCell.value (Cell.layer c layer)) eqn:Hv; [reflexivity|].
  exfalso. apply (not_elem_of_empty (C:=gset Direction) d).
  destruct layer; simpl in Hv, Hd;
    [rewrite <- (Hm Hv) | rewrite <- (Hn Hv) | rewrite <- (Hp Hv)]; exact Hd.
Qed.

Lemma Cell_check_connected_present_witness :
  LayerCell.value (Cell.layer npn_cell PTYPE_LAYER) = true.
Proof.
  apply (Cell_check_connected_present npn_cell PTYPE_LAYER UP);
    [vm_compute; reflexivity | apply (bool_decide_unpack _); vm_compute; exact I].
Defined.

(** X10. A cell without silicon and without via passes validation as soon as
    its metal layer is consistent, whether or not it is a capacitor and
    whether or not the metal layer is present. *)
Theorem Cell_check_no_silicon (c : Cell.t) :
  Cell.ntype c = LayerCell.mk false ∅ →
  Cell.ptype c = LayerCell.mk false ∅ →
  Cell.via c = false →
  (LayerCell.value (Cell.metal c) = false →
   LayerCell.connections (Cell.metal c) = ∅) →
  Cell.check c = Passed.
Proof.
  intros Hn Hp Hvia Hm. rewrite Cell_check_Passed, !LayerCell_check_Passed.
  unfold capacitor_placement, via_placement, transistor.
  rewrite Hn, Hp, Hvia. simpl.
  split; [exact Hm|]. split; [reflexivity|]. split; [reflexivity|].
  split; [intros _; split; reflexivity|]. split; [discriminate 1|].
  split; [apply (left_absorb_L ∅ (∩)) | intros [? _]; discriminate].
Qed.

Lemma Cell_check_no_silicon_witness : Cell.check bare_capacitor = Passed.
Proof.
  apply (Cell_check_no_silicon bare_capacitor); reflexivity.
Defined.

(** ** The board validator as a whole *)

Lemma LayerCell_check_member l d :
  LayerCell.check l = Passed → d ∈ LayerCell.connections l →
  LayerCell.value l = true.
Proof.
  rewrite LayerCell_check_Passed. intros Hl Hd.
  destruct (LayerCell.value l); [reflexivity|].
  rewrite (Hl eq_refl) in Hd. destruct (not_elem_of_empty d Hd).
Qed.

Lemma Cell_check_layer c layer :
  Cell.check c = Passed → LayerCell.check (Cell.layer c layer) = Passed.
Proof.
  rewrite Cell_check_Passed. intros (Hm & Hn & Hp & _).
  destruct layer; assumption.
Qed.

Lemma for_each_permutation {A} (body : A → result unit) (l l' : list A) :
  (∀ a, asserting (body a)) → l ≡ₚ l' →
  for_each l body = for_each l' body.
Proof.
  intros Hbody. induction 1 as [|a l l' _ IH|a b l|l1 l2 l3 _ IH1 _ IH2].
  - reflexivity.
  - simpl. change (foldr (λ a k, body a;; k) Passed l) with (for_each l body).
    change (foldr (λ a k, body a;; k) Passed l') with (for_each l' body).
    rewrite IH. reflexivity.
  - simpl. destruct (Hbody a) as [-> | ->], (Hbody b) as [-> | ->];
      reflexivity.
  - rewrite IH1. exact IH2.
Qed.

(** X11. Validation never fails on an index: whatever the shape of the grid,
    it passes or raises an assertion error. *)
Theorem Solution_check_no_IndexError (s : Solution.t) :
  Solution.check s = Passed ∨ Solution.check s = Raise AssertionError.
Proof. exact (Solution_check_asserting s). Qed.

(** X12. A grid that has not six columns of five cells each fails validation. *)
Theorem Solution_check_wrong_size (s : Solution.t) :
  ¬ well_sized s → Solution.check s = Raise AssertionError.
Proof.
  intros Hsize. apply asserting_not_Passed; [apply Solution_check_asserting|].
  rewrite Solution_check_Passed. tauto.
Qed.

Lemma Solution_check_wrong_size_witness :
  Solution.check no_board = Raise AssertionError.
Proof.
  apply (Solution_check_wrong_size no_board). intros [H _]. discriminate H.
Defined.

(** X13. A board passes validation exactly when it has six columns of five
    cells, each cell passes its own check, and each connection of each
    layer of each cell is reciprocated or a legal pin. *)
Theorem Solution_check_characterisation (s : Solution.t) :
  Solution.check s = Passed ↔
    well_sized s
    ∧ (∀ x y c, cell_at s x y = Some c → Cell.check c = Passed)
    ∧ (∀ x y c layer d,
         cell_at s x y = Some c →
         d ∈ LayerCell.connections (Cell.layer c layer) →
         reciprocated s x y layer d).
Proof.
  rewrite Solution_check_Passed. split.
  - intros [Hsize Hall]. split; [exact Hsize|]. split.
    + intros x y c Hc. apply (Hall x y c Hc).
    + intros x y c layer d Hc. apply (Hall x y c Hc).
  - intros (Hsize & Hcells & Hconns). split; [exact Hsize|].
    intros x y c Hc. split; [apply (Hcells x y c Hc)|].
    intros layer d. apply (Hconns x y c layer d Hc).
Qed.

(** X14. A board with a cell that fails its own check fails validation. *)
Theorem Solution_check_bad_cell (s : Solution.t) (x y : Z) (c : Cell.t) :
  cell_at s x y = Some c → Cell.check c ≠ Passed →
  Solution.check s = Raise AssertionError.
Proof.
  intros Hc Hbad. apply asserting_not_Passed; [apply Solution_check_asserting|].
  rewrite Solution_check_Passed. intros [_ Hall].
  apply Hbad. apply (Hall x y c Hc).
Qed.

Lemma Solution_check_bad_cell_witness :
  Solution.check dangling_board = Raise AssertionError.
Proof.
  apply (Solution_check_bad_cell dangling_board 0 0
           (Cell.mk dangling absent absent false false false));
    [reflexivity | vm_compute; discriminate].
Defined.

(** X15. On a board that passes validation, a connection that leaves the board
    is a metal connection through the left edge or the right edge, in row
    0, 2 or 4: no silicon connection and no connection through the top or
    the bottom edge leaves the board. *)
Theorem Solution_check_boundary (s : Solution.t) (x y : Z) (c : Cell.t)
    (layer : Layer) (d : Direction) :
  Solution.check s = Passed →
  cell_at s x y = Some c →
  d ∈ LayerCell.connections (Cell.layer c layer) →
  Coords.in_bounds (Coords.add (Coords.mk x y) (Dir.delta d)) = false →
  layer = METAL_LAYER
  ∧ ((d = LEFT ∧ x = 0) ∨ (d = RIGHT ∧ x = 5))
  ∧ (y = 0 ∨ y = 2 ∨ y = 4).
Proof.
  rewrite Solution_check_Passed. intros [Hsize Hall] Hc Hd Hout.
  destruct (cell_at_in_bounds _ Hsize _ _ _ Hc) as [Hx Hy].
  destruct (Hall _ _ _ Hc) as [_ Hconns].
  specialize (Hconns layer d Hd). unfold reciprocated in Hconns.
  cbv zeta in Hconns. rewrite Hout in Hconns.
  destruct Hconns as [Hl [Hpx Hpy]]. split; [exact Hl|].
  destruct d; simpl in Hpx, Hpy; split; first [lia | (left; split; [reflexivity|lia]) | (right; split; [reflexivity|lia])].
Qed.

Lemma Solution_check_boundary_witness :
  METAL_LAYER = METAL_LAYER
  ∧ ((LEFT = LEFT ∧ 0 = 0) ∨ (LEFT = RIGHT ∧ 0 = 5))
  ∧ (0 = 0 ∨ 0 = 2 ∨ 0 = 4).
Proof.
  apply (Solution_check_boundary pin_board 0 0 (metal_cell {[LEFT; RIGHT]}));
    [ vm_compute; reflexivity | reflexivity
    | apply (bool_decide_unpack _); vm_compute; exact I | reflexivity ].
Defined.

(** X16. On a board that passes validation, a connection that stays on the
    board joins two cells in which that layer is present. *)
Theorem Solution_check_joined_present (s : Solution.t) (x y : Z) (c : Cell.t)
    (layer : Layer) (d : Direction) :
  Solution.check s = Passed →
  cell_at s x y = Some c →
  d ∈ LayerCell.connections (Cell.layer c layer) →
  Coords.in_bounds (Coords.add (Coords.mk x y) (Dir.delta d)) = true →
  LayerCell.value (Cell.layer c layer) = true
  ∧ ∃ nc, cell_at s (x + Coords.x (Dir.delta d)) (y + Coords.y (Dir.delta d))
          = Some nc
          ∧ LayerCell.value (Cell.layer nc layer) = true.
Proof.
  rewrite Solution_check_Passed. intros [Hsize Hall] Hc Hd Hin.
  destruct (Hall _ _ _ Hc) as [Hck Hconns]. split.
  - apply (LayerCell_check_member _ d); [apply Cell_check_layer, Hck | exact Hd].
  - specialize (Hconns layer d Hd). unfold reciprocated in Hconns.
    cbv zeta in Hconns. rewrite Hin in Hconns.
    destruct Hconns as (nc & Hnc & Hopp). exists nc. split; [exact Hnc|].
    destruct (Hall _ _ _ Hnc) as [Hnck _].
    apply (LayerCell_check_member _ (Dir.opposite d));
      [apply Cell_check_layer, Hnck | exact Hopp].
Qed.

Lemma Solution_check_joined_present_witness :
  LayerCell.value (Cell.layer (metal_cell {[LEFT; RIGHT]}) METAL_LAYER) = true
  ∧ ∃ nc, cell_at pin_board (0 + Coords.x (Dir.delta RIGHT))
                            (0 + Coords.y (Dir.delta RIGHT)) = Some nc
          ∧ LayerCell.value (Cell.layer nc METAL_LAYER) = true.
Proof.
  apply (Solution_check_joined_present pin_board 0 0
           (metal_cell {[LEFT; RIGHT]}) METAL_LAYER RIGHT);
    [ vm_compute; reflexivity | reflexivity
    | apply (bool_decide_unpack _); vm_compute; exact I | reflexivity ].
Defined.

(** X17. On a grid of the right size, the loop over the connections of a layer
    gives the same result in whatever order it visits them. *)
Theorem Solution_check_connection_order (s : Solution.t) (x y : Z)
    (layer : Layer) (l l' : list Direction) :
  well_sized s → l ≡ₚ l' →
  for_each l (Solution.check_connection s x y layer)
  = for_each l' (Solution.check_connection s x y layer).
Proof.
  intros Hsize Hl. apply for_each_permutation; [|exact Hl].
  intros d. apply check_connection_asserting, Hsize.
Qed.

Lemma Solution_check_connection_order_witness :
  for_each [LEFT; RIGHT] (Solution.check_connection pin_board 0 0 METAL_LAYER)
  = for_each [RIGHT; LEFT] (Solution.check_connection pin_board 0 0 METAL_LAYER).
Proof.
  apply (Solution_check_connection_order pin_board 0 0 METAL_LAYER).
  - split; [reflexivity | repeat constructor].
  - apply perm_swap.
Defined.

(** ** The gate rule and the initial state *)

(** X18. The open flags that [update_gates] leaves depend on the powered and
    open flags it finds and on the capacitor and n-on-top flags only: the
    presence values, the connection sets and the via flag play no part. *)
Theorem update_gates_ignores_presence (s s' : CellState.t) :
  (∀ layer,
     LayerCellState.powered (CellState.layer s layer)
       = LayerCellState.powered (CellState.layer s' layer)
     ∧ LayerCellState.open (CellState.layer s layer)
       = LayerCellState.open (CellState.layer s' layer)) →
  CellState.capacitor s = CellState.capacitor s' →
  CellState.n_on_top s = CellState.n_on_top s' →
  ∀ layer,
    LayerCellState.open (CellState.layer (CellState.update_gates s) layer)
    = LayerCellState.open (CellState.layer (CellState.update_gates s') layer).
Proof.
  intros Hl Hcap Htop layer.
  destruct (Hl METAL_LAYER) as [Hmp Hmo], (Hl NTYPE_LAYER) as [Hnp Hno],
    (Hl PTYPE_LAYER) as [Hpp Hpo].
  destruct s as [m n p cap v top], s' as [m' n' p' cap' v' top'].
  simpl in *. subst cap' top'.
  unfold CellState.update_gates, CellState.capacitor_rule,
    CellState.transistor_rule. simpl. rewrite <- Hmp.
  destruct layer, cap, top, (LayerCellState.powered m); simpl; congruence.
Qed.

Lemma update_gates_ignores_presence_witness :
  LayerCellState.open (CellState.ntype (CellState.update_gates ntype_wire))
  = LayerCellState.open
      (CellState.ntype (CellState.update_gates ntype_over_ptype)).
Proof.
  apply (update_gates_ignores_presence ntype_wire ntype_over_ptype
           (λ layer, match layer with
                     | METAL_LAYER | NTYPE_LAYER | PTYPE_LAYER =>
                         conj eq_refl eq_refl
                     end)
           eq_refl eq_refl NTYPE_LAYER).
Defined.

(** X19. The two statements of [update_gates] can be run in either order. *)
Theorem update_gates_rules_commute (s : CellState.t) :
  CellState.transistor_rule (CellState.capacitor_rule s)
  = CellState.capacitor_rule (CellState.transistor_rule s).
Proof.
  destruct s as [[mv mc mp mo] n p cap v top].
  destruct cap, top, mp; reflexivity.
Qed.

(** X20. The open flags of the initial state: the metal layer is open unless
    the cell is a capacitor, the p-type layer is open, and the n-type layer
    is open exactly when n-on-top is set. *)
Theorem from_cell_open (cell : Cell.t) :
  LayerCellState.open (CellState.metal (CellState.from_cell cell))
    = negb (Cell.capacitor cell)
  ∧ LayerCellState.open (CellState.ntype (CellState.from_cell cell))
    = Cell.n_on_top cell
  ∧ LayerCellState.open (CellState.ptype (CellState.from_cell cell)) = true.
Proof.
  destruct cell as [m n p cap v top].
  unfold CellState.from_cell, CellState.update_gates,
    CellState.capacitor_rule, CellState.transistor_rule. simpl.
  destruct cap, top; repeat split; reflexivity.
Qed.

(** X21. The initial state carries the layout of the cell over: presence and
    connections layer by layer, and the three static flags. *)
Theorem from_cell_layout (cell : Cell.t) :
  (∀ layer,
     LayerCellState.value (CellState.layer (CellState.from_cell cell) layer)
       = LayerCell.value (Cell.layer cell layer)
     ∧ LayerCellState.connections
         (CellState.layer (CellState.from_cell cell) layer)
       = LayerCell.connections (Cell.layer cell layer))
  ∧ CellState.capacitor (CellState.from_cell cell) = Cell.capacitor cell
  ∧ CellState.via (CellState.from_cell cell) = Cell.via cell
  ∧ CellState.n_on_top (CellState.from_cell cell) = Cell.n_on_top cell.
Proof.
  destruct cell as [m n p cap v top].
  unfold CellState.from_cell, CellState.update_gates,
    CellState.capacitor_rule, CellState.transistor_rule. simpl.
  split; [intros layer|];
    destruct cap, top; try destruct layer; repeat split; reflexivity.
Qed.

(** ** The gate rule on shared layer objects *)

Section InPlaceAliasing.
Import InPlace.
Implicit Types (o : InPlace.t) (h : nat → LayerCellState.t).

Lemma set_open_attrs r b h r' :
  LayerCellState.powered (set_open r b h r') = LayerCellState.powered (h r')
  ∧ LayerCellState.value (set_open r b h r') = LayerCellState.value (h r')
  ∧ LayerCellState.connections (set_open r b h r')
    = LayerCellState.connections (h r').
Proof.
  unfold set_open, insert, fn_insert.
  destruct (decide (r = r')) as [->|]; repeat split; reflexivity.
Qed.

(** X22. Whatever objects the three layers are, the method changes no
    attribute but [open], on any object of the store. *)
Theorem InPlace_update_gates_only_open o h r :
  LayerCellState.powered (update_gates o h r) = LayerCellState.powered (h r)
  ∧ LayerCellState.value (update_gates o h r) = LayerCellState.value (h r)
  ∧ LayerCellState.connections (update_gates o h r)
    = LayerCellState.connections (h r).
Proof.
  unfold update_gates. cbv zeta.
  destruct (capacitor o), (LayerCellState.powered (h (metal o))),
    (n_on_top o); simpl;
    repeat match goal with
           | |- context [set_open ?a ?b ?g r] =>
               destruct (set_open_attrs a b g r) as (-> & -> & ->)
           end; repeat split; reflexivity.
Qed.

(** X23. On three separate layer objects the method computes
    [CellState.update_gates], and it leaves every other object as it is. *)
Theorem InPlace_update_gates_separate o h :
  separate o →
  read o (update_gates o h) = CellState.update_gates (read o h)
  ∧ ∀ r, r ≠ metal o → r ≠ ntype o → r ≠ ptype o → update_gates o h r = h r.
Proof.
  intros Hsep. split; [apply InPlace_update_gates_refines, Hsep|].
  intros r. apply InPlace_update_gates_frame.
Qed.

(** X24. The layer objects [from_cell] creates are separate, the cell state
    they make up is the value of [CellState.from_cell], and the objects
    that existed before are untouched. *)
Theorem InPlace_from_cell_fresh cell (fresh : nat) h :
  separate (from_cell cell fresh h).1
  ∧ read (from_cell cell fresh h).1 (from_cell cell fresh h).2
    = CellState.from_cell cell
  ∧ ∀ r, (r < fresh)%nat → (from_cell cell fresh h).2 r = h r.
Proof.
  destruct (InPlace_from_cell_refines cell fresh h) as [Hsep Hread].
  split; [exact Hsep|]. split; [exact Hread|].
  intros r Hr. unfold from_cell. cbv zeta. simpl.
  rewrite InPlace_update_gates_frame by (simpl; lia).
  rewrite !fn_lookup_insert_ne by lia. reflexivity.
Qed.

(** X25. The method is idempotent, also when layers share objects. *)
Theorem InPlace_update_gates_idempotent o h r :
  update_gates o (update_gates o h) r = update_gates o h r.
Proof.
  destruct o as [m n p cap v top].
  unfold update_gates, set_open, insert, fn_insert. simpl.
  destruct cap, top, (LayerCellState.powered (h m)) eqn:E; simpl;
    repeat (case_decide; subst; simpl in *; rewrite ?E in *; simpl in *);
    try reflexivity; try congruence.
Qed.
End InPlaceAliasing.

Lemma InPlace_update_gates_separate_witness :
  InPlace.read three_layers (InPlace.update_gates three_layers open_everywhere)
  = CellState.update_gates (InPlace.read three_layers open_everywhere)
  ∧ ∀ r, r ≠ 0%nat → r ≠ 1%nat → r ≠ 2%nat →
         InPlace.update_gates three_layers open_everywhere r
         = open_everywhere r.
Proof.
  apply (InPlace_update_gates_separate three_layers open_everywhere).
  repeat split; discriminate.
Defined.
